(** * md2docx: the /api/convert handler of app.py

    A shallow embedding of [convert_markdown_to_docx] (app.py, lines 27-103).
    The handler is effectful: it reads the request, writes a scratch file,
    runs pandoc, answers with a JSON body or a file, and removes its scratch
    files in a [finally] block.  It is modelled as a computation in a state
    and exception monad over a [world] (scratch file system and a log of the
    calls that leave the process); everything the handler cannot decide
    itself (the uuid drawn, I/O failures, what pandoc does) is read from an
    environment record [Env]. *)

From stdpp Require Import gmap strings list fin_maps.
From Stdlib Require Import ZArith Ascii String Floats.PrimFloat.

Local Open Scope string_scope.
Local Open Scope Z_scope.

(** ** Python values and exceptions *)

(** The value [request.get_json()] returns: what Python's json module builds
    from a JSON document: null, booleans, int and float numbers, strings,
    lists, and dicts (finite maps from keys to values). *)
#[warnings="-register-all"]
Inductive pyval : Type :=
  | PNone : pyval
  | PBool : bool -> pyval
  | PInt : Z -> pyval
  | PFloat : float -> pyval
  | PStr : string -> pyval
  | PList : list pyval -> pyval
  | PDict : gmap string pyval -> pyval.

(** Python's truth value, as tested by [not markdown_content]. *)
Definition truthy (v : pyval) : bool :=
  match v with
  | PNone => false
  | PBool b => b
  | PInt n => negb (n =? 0)
  | PFloat x => negb (PrimFloat.eqb x 0%float)
  | PStr s => negb (String.eqb s "")
  | PList l => match l with [] => false | _ => true end
  | PDict d => negb (bool_decide (d = ∅))
  end.

(** [type(v).__name__], as Python prints it in an AttributeError. *)
Definition type_name (v : pyval) : string :=
  match v with
  | PNone => "NoneType"
  | PBool _ => "bool"
  | PInt _ => "int"
  | PFloat _ => "float"
  | PStr _ => "str"
  | PList _ => "list"
  | PDict _ => "dict"
  end.

Definition is_dict (v : pyval) : bool :=
  match v with PDict _ => true | _ => false end.

(** The exceptions that can leave a call the handler makes.
    [AttributeError ty attr]: an object of type [ty] has no attribute [attr];
    [BadRequest]: werkzeug's HTTP exception for a body that is not JSON;
    [TimeoutExpired cmd t]: raised by subprocess.run once it has killed the
    child that outlived [t] seconds. *)
Inductive exn : Type :=
  | AttributeError : string -> string -> exn
  | TypeError : string -> exn
  | BadRequest : exn
  | OSError : string -> exn
  | UnicodeError : string -> exn
  | TimeoutExpired : list string -> Z -> exn.

(** ** Requests and responses *)

(** What the handler reads of flask's [request]: [is_json] (the content type
    is JSON) and the parsed body, [None] when the body does not parse. *)
Record request : Type := mkRequest {
  is_json : bool;
  json : option pyval
}.

(** What the view function returns: the pair [(jsonify(payload), status)], or
    the response built by [send_file] from the contents of a file. *)
Inductive response : Type :=
  | JsonResponse (payload : gmap string string) (status : Z)
  | FileResponse (content : string) (as_attachment : bool)
                 (download_name : string) (mimetype : string).

(** The HTTP status of a response; a [send_file] response is a 200. *)
Definition status_code (r : response) : Z :=
  match r with
  | JsonResponse _ st => st
  | FileResponse _ _ _ _ => 200
  end.

(** [subprocess.CompletedProcess] with captured, decoded output. *)
Record CompletedProcess : Type := mkCompleted {
  returncode : Z;
  stdout : string;
  stderr : string
}.

(** ** The world the handler acts on *)

(** Calls that leave the process, in the order they were made. *)
Inductive event : Type :=
  | Spawn (cmd : list string) (timeout : Z)
  | Printed (args : list string)
  | SendFile (path : string).

Record world : Type := mkWorld {
  fs : gmap string string;      (* path to contents *)
  log : list event
}.

(** What the handler does not decide: the uuid drawn for the request, the
    process environment, which file operations fail, and what the converter
    does to the file system. *)
Record Env : Type := mkEnv {
  token : string;                                  (* str(uuid.uuid4()) *)
  environ : gmap string string;                    (* os.environ *)
  open_error : string -> option exn;               (* open(path, 'w') *)
  write_error : string -> string -> option exn;    (* f.write(text) *)
  run : list string -> Z -> gmap string string ->
        (exn + CompletedProcess) * gmap string string;
  send_file_error : string -> option exn;
  remove_error : string -> option exn              (* os.remove(path) *)
}.

(** ** State and exception monad *)

Inductive result (A : Type) : Type :=
  | Val : A -> result A
  | Exc : exn -> result A.
Arguments Val {A} _.
Arguments Exc {A} _.

Definition M (A : Type) : Type := world -> result A * world.

#[global] Instance M_ret : MRet M := fun A a w => (Val a, w).
#[global] Instance M_bind : MBind M := fun A B f m w =>
  match m w with
  | (Val a, w1) => f a w1
  | (Exc e, w1) => (Exc e, w1)
  end.

Definition raise {A : Type} (e : exn) : M A := fun w => (Exc e, w).

(** [if b: m], a statement without an else branch. *)
Definition when (b : bool) (m : M unit) : M unit :=
  if b then m else mret tt.

(** [try: body finally: fin], for a [fin] that does not return: [fin] runs
    whatever [body] did; the outcome is that of [body], unless [fin] raises,
    in which case it is the exception of [fin]. *)
Definition try_finally {A : Type} (body : M A) (fin : M unit) : M A := fun w =>
  match body w with
  | (o, w1) =>
      match fin w1 with
      | (Val _, w2) => (o, w2)
      | (Exc e, w2) => (Exc e, w2)
      end
  end.

(** ** Library calls made by the handler *)

(** [posixpath.join] of two components: an absolute second component
    discards the first; otherwise the two are joined by one slash. *)
Definition starts_with_slash (s : string) : bool :=
  match s with
  | String c _ => Ascii.eqb c "/"
  | EmptyString => false
  end.

Fixpoint ends_with_slash (s : string) : bool :=
  match s with
  | EmptyString => false
  | String c EmptyString => Ascii.eqb c "/"
  | String _ s' => ends_with_slash s'
  end.

Definition os_path_join (a b : string) : string :=
  if starts_with_slash b then b
  else if String.eqb a "" || ends_with_slash a then a +:+ b
  else a +:+ "/" +:+ b.

(** [jsonify(d)] paired with a status. *)
Definition jsonify (d : gmap string string) (status : Z) : response :=
  JsonResponse d status.

Section Handler.
Variable E : Env.

(** [request.get_json()]: the parsed body, or werkzeug's BadRequest. *)
Definition get_json (req : request) : M pyval :=
  match json req with
  | Some v => mret v
  | None => raise BadRequest
  end.

(** [data.get(key)]: only a dict has the method; a missing key gives None. *)
Definition py_get (data : pyval) (key : string) : M pyval :=
  match data with
  | PDict d => mret (default PNone (d !! key))
  | v => raise (AttributeError (type_name v) "get")
  end.

(** [str(uuid.uuid4())]. *)
Definition uuid4_str : M string := mret (token E).

(** [with open(path, 'w', encoding='utf-8') as f: f.write(content)].
    Opening creates or truncates the file; [write] accepts a str only. *)
Definition write_text (path : string) (content : pyval) : M unit := fun w =>
  match open_error E path with
  | Some e => (Exc e, w)
  | None =>
      let w1 := mkWorld (<[path := ""]> (fs w)) (log w) in
      match content with
      | PStr s =>
          match write_error E path s with
          | Some e => (Exc e, w1)
          | None => (Val tt, mkWorld (<[path := s]> (fs w)) (log w))
          end
      | _ => (Exc (TypeError "write() argument must be str"), w1)
      end
  end.

(** [subprocess.run(cmd, capture_output=True, text=True, timeout=t)]. *)
Definition subprocess_run (cmd : list string) (t : Z) : M CompletedProcess :=
  fun w =>
    match run E cmd t (fs w) with
    | (inr cp, fs') => (Val cp, mkWorld fs' (log w ++ [Spawn cmd t]))
    | (inl e, fs') => (Exc e, mkWorld fs' (log w ++ [Spawn cmd t]))
    end.

Definition print (args : list string) : M unit := fun w =>
  (Val tt, mkWorld (fs w) (log w ++ [Printed args])).

Definition os_path_exists (path : string) : M bool := fun w =>
  (Val (match fs w !! path with Some _ => true | None => false end), w).

Definition os_remove (path : string) : M unit := fun w =>
  match remove_error E path with
  | Some e => (Exc e, w)
  | None =>
      match fs w !! path with
      | Some _ => (Val tt, mkWorld (delete path (fs w)) (log w))
      | None => (Exc (OSError "FileNotFoundError"), w)
      end
  end.

(** [send_file(path, as_attachment=.., download_name=.., mimetype=..)]:
    the file is opened when the response is built. *)
Definition send_file (path : string) (as_attachment : bool)
    (download_name mimetype : string) : M response := fun w =>
  match send_file_error E path with
  | Some e => (Exc e, w)
  | None =>
      match fs w !! path with
      | Some content =>
          (Val (FileResponse content as_attachment download_name mimetype),
           mkWorld (fs w) (log w ++ [SendFile path]))
      | None => (Exc (OSError "FileNotFoundError"), w)
      end
  end.

(** ** app.py *)

Definition TEMP_DIR : string := "/tmp".

Definition docx_mimetype : string :=
  "application/vnd.openxmlformats-officedocument.wordprocessingml.document".

(** The two paths derived from the uuid (lines 46-47). *)
Definition input_md_path (unique_id : string) : string :=
  os_path_join TEMP_DIR (unique_id +:+ ".md").
Definition output_docx_path (unique_id : string) : string :=
  os_path_join TEMP_DIR (unique_id +:+ ".docx").

Definition command (input output : string) : list string :=
  ["pandoc"; input; "-o"; output].

(** The [try] block (lines 50-95). *)
Definition try_block (input output : string) (markdown_content : pyval)
    : M response :=
  write_text input markdown_content;;
  result ← subprocess_run (command input output) 30;
  if negb (returncode result =? 0) then
    print ["Pandoc Error:"; stderr result];;
    mret (jsonify {[ "error" := "Pandoc conversion failed";
                     "details" := stderr result ]} 500)
  else
    found ← os_path_exists output;
    if negb found then
      mret (jsonify {[ "error" := "Converted file not found on server" ]} 500)
    else
      send_file output true "converted_document.docx" docx_mimetype.

(** The [finally] block (lines 97-103). *)
Definition finally_block (input output : string) : M unit :=
  found_in ← os_path_exists input;
  when found_in (os_remove input);;
  found_out ← os_path_exists output;
  when found_out (os_remove output).

(** The view function (lines 28-103). *)
Definition convert_markdown_to_docx (req : request) : M response :=
  if negb (is_json req) then
    mret (jsonify {[ "error" := "Request must be JSON" ]} 415)
  else
    data ← get_json req;
    markdown_content ← py_get data "markdown";
    if negb (truthy markdown_content) then
      mret (jsonify {[ "error" := "Missing 'markdown' key in request body" ]} 400)
    else
      unique_id ← uuid4_str;
      try_finally
        (try_block (input_md_path unique_id) (output_docx_path unique_id)
                   markdown_content)
        (finally_block (input_md_path unique_id) (output_docx_path unique_id)).

End Handler.

(** What flask answers for an outcome of the view function: the response's
    own status; the status of an HTTP exception (BadRequest is a 400); and
    500 Internal Server Error for any other exception. *)
Definition flask_status (o : result response) : Z :=
  match o with
  | Val r => status_code r
  | Exc BadRequest => 400
  | Exc _ => 500
  end.

(** ** The text of a uuid *)

Definition is_hex (c : ascii) : bool :=
  existsb (Ascii.eqb c) (list_ascii_of_string "0123456789abcdef").

Definition hyphen_position (i : nat) : bool :=
  (Nat.eqb i 8 || Nat.eqb i 13 || Nat.eqb i 18 || Nat.eqb i 23)%bool.

(** [uuid_form_from i s]: [s] is the text of a uuid from position [i] on. *)
Fixpoint uuid_form_from (i : nat) (s : string) : bool :=
  match s with
  | EmptyString => Nat.eqb i 36
  | String c s' =>
      (if hyphen_position i then Ascii.eqb c "-" else is_hex c)
      && uuid_form_from (S i) s'
  end.

(** The form of [str(uuid)]: 32 lower-case hexadecimal digits in groups of
    8, 4, 4, 4 and 12, separated by hyphens. *)
Definition uuid_form (s : string) : bool := uuid_form_from 0 s.




(** ** Reading the handler *)

(** The request passes both validation checks (lines 33 and 40); the result
    is the value bound to [markdown_content]. *)
Definition validated (req : request) : option pyval :=
  if is_json req then
    match json req with
    | Some (PDict d) =>
        let v := default PNone (d !! "markdown") in
        if truthy v then Some v else None
    | _ => None
    end
  else None.

(** The two scratch paths of a request served under [E]. *)
Definition md_path (E : Env) : string := input_md_path (token E).
Definition docx_path (E : Env) : string := output_docx_path (token E).

(** [os.remove] fails on neither scratch path. *)
Definition removals_succeed (E : Env) : Prop :=
  remove_error E (md_path E) = None /\ remove_error E (docx_path E) = None.

(** The file system once both paths have been removed. *)
Definition cleaned (E : Env) (f : gmap string string) : gmap string string :=
  delete (docx_path E) (delete (md_path E) f).

Ltac unfold_monad :=
  unfold mbind, M_bind, mret, M_ret, raise, when in *.


(** The success response of line 88. *)
Definition success_response (content : string) : response :=
  FileResponse content true "converted_document.docx" docx_mimetype.

(** The four JSON error responses the handler builds. *)
Definition not_json_response : response :=
  jsonify {[ "error" := "Request must be JSON" ]} 415.
Definition missing_markdown_response : response :=
  jsonify {[ "error" := "Missing 'markdown' key in request body" ]} 400.
Definition pandoc_failed_response (details : string) : response :=
  jsonify {[ "error" := "Pandoc conversion failed"; "details" := details ]} 500.
Definition output_missing_response : response :=
  jsonify {[ "error" := "Converted file not found on server" ]} 500.

(** The same environment under another [os.environ]. *)
Definition with_environ (E : Env) (vars : gmap string string) : Env :=
  mkEnv (token E) vars (open_error E) (write_error E) (run E)
        (send_file_error E) (remove_error E).

(** How the try block classifies what [subprocess.run] gave (lines 73-95):
    [l] is the log so far, [r] the exception or completed process, [f'] the
    file system the converter left. *)
Definition outcome_of_run (E : Env) (l : list event)
    (r : exn + CompletedProcess) (f' : gmap string string)
    : result response * world :=
  match r with
  | inl e => (Exc e, mkWorld f' l)
  | inr cp =>
      if negb (returncode cp =? 0) then
        (Val (pandoc_failed_response (stderr cp)),
         mkWorld f' (l ++ [Printed ["Pandoc Error:"; stderr cp]])%list)
      else
        match f' !! docx_path E with
        | None => (Val output_missing_response, mkWorld f' l)
        | Some content =>
            match send_file_error E (docx_path E) with
            | Some e => (Exc e, mkWorld f' l)
            | None => (Val (success_response content),
                       mkWorld f' (l ++ [SendFile (docx_path E)])%list)
            end
        end
  end.

(** The command line of the request served under [E]. *)
Definition pandoc_command (E : Env) : list string :=
  command (md_path E) (docx_path E).

(** The request [req] passes validation, its markdown text is written to the
    input path, and the converter, run on the resulting file system, gives
    [r] and leaves the file system [f']. *)
Definition converter_gives (E : Env) (req : request) (w : world)
    (r : exn + CompletedProcess) (f' : gmap string string) : Prop :=
  exists s : string,
    validated req = Some (PStr s)
    /\ open_error E (md_path E) = None
    /\ write_error E (md_path E) s = None
    /\ run E (pandoc_command E) 30 (<[md_path E := s]> (fs w)) = (r, f').

(** The value is a Python str. *)
Definition is_str (v : pyval) : bool :=
  match v with PStr _ => true | _ => false end.


(** A converter that copies its input file to its output file: exit code 0,
    or 1 when the input file is missing, 2 on any other command line. *)
Definition copy_converter (cmd : list string) (t : Z) (f : gmap string string)
    : (exn + CompletedProcess) * gmap string string :=
  match cmd with
  | [_; input; _; output] =>
      match f !! input with
      | Some text => (inr (mkCompleted 0 "" ""), <[output := text]> f)
      | None => (inr (mkCompleted 1 "" "input not found"), f)
      end
  | _ => (inr (mkCompleted 2 "" "usage"), f)
  end.

(** The converter of [E], run as the handler runs it, never changes the
    file at [p]. *)
Definition converter_leaves (E : Env) (p : string) : Prop :=
  forall f : gmap string string,
    snd (run E (pandoc_command E) 30 f) !! p = f !! p.

(** ** Sample environments *)

Module Sample.

Definition tok : string := "3f2b8c1e-9d4a-4e7b-8a6c-1b2c3d4e5f60".
Definition md : string := "/tmp/3f2b8c1e-9d4a-4e7b-8a6c-1b2c3d4e5f60.md".

Definition never {A : Type} : A -> option exn := fun _ => None.
Definition never2 {A B : Type} : A -> B -> option exn := fun _ _ => None.

(** A converter that writes its output file and exits 0. *)
Definition pandoc_ok (cmd : list string) (t : Z) (f : gmap string string)
    : (exn + CompletedProcess) * gmap string string :=
  match cmd with
  | [_; _; _; out] => (inr (mkCompleted 0 "" ""), <[out := "PK-docx"]> f)
  | _ => (inr (mkCompleted 2 "" "usage"), f)
  end.

(** A converter that rejects its input. *)
Definition pandoc_rejects (cmd : list string) (t : Z) (f : gmap string string)
    : (exn + CompletedProcess) * gmap string string :=
  (inr (mkCompleted 1 "" "pandoc: parse error"), f).


(** A converter that is killed at the timeout, its output half written. *)
Definition pandoc_hangs (cmd : list string) (t : Z) (f : gmap string string)
    : (exn + CompletedProcess) * gmap string string :=
  match cmd with
  | [_; _; _; out] => (inl (TimeoutExpired cmd t), <[out := "PK-"]> f)
  | _ => (inl (TimeoutExpired cmd t), f)
  end.

Definition E_ok : Env := mkEnv tok ∅ never never2 pandoc_ok never never.
Definition E_rejects : Env := mkEnv tok ∅ never never2 pandoc_rejects never never.
Definition E_hangs : Env := mkEnv tok ∅ never never2 pandoc_hangs never never.

(** The scratch directory is full: [open] fails. *)
Definition E_disk_full : Env :=
  mkEnv tok ∅ (fun _ => Some (OSError "No space left on device")) never2
        pandoc_ok never never.

(** The input artifact cannot be removed. *)
Definition E_undeletable : Env :=
  mkEnv tok ∅ never never2 pandoc_ok never
        (fun p => if String.eqb p md then Some (OSError "Permission denied")
                  else None).

(** The process environment names another scratch directory. *)
Definition E_scratch_env : Env :=
  with_environ E_ok {[ "TEMP_DIR" := "/var/scratch"; "TMPDIR" := "/var/scratch" ]}.


(** The converter copies its input. *)
Definition E_copy : Env := mkEnv tok ∅ never never2 copy_converter never never.

(** Another uuid. *)
Definition tok' : string := "0a1b2c3d-4e5f-4a6b-9c7d-8e9f0a1b2c3d".

(** A file system with a file of another request in the scratch directory. *)
Definition w_busy : world :=
  mkWorld {[ "/tmp/0a1b2c3d-4e5f-4a6b-9c7d-8e9f0a1b2c3d.md" := "other" ]} [].

Definition w0 : world := mkWorld ∅ [].

Definition post (body : pyval) : request := mkRequest true (Some body).
Definition hello : request := post (PDict {[ "markdown" := PStr "# Hello" ]}).

End Sample.

(** * Supporting lemmas *)

Module Text.

Lemma uuid_form_from_length (s : string) :
  forall i : nat, uuid_form_from i s = true -> (i + String.length s = 36)%nat.
Proof.
  induction s as [|c s IH]; intros i H; simpl in *.
  - apply Nat.eqb_eq in H. lia.
  - apply andb_prop in H as [_ H]. apply IH in H. lia.
Qed.








Lemma uuid_form_not_absolute (tok ext : string) :
  uuid_form tok = true -> starts_with_slash (tok +:+ ext) = false.
Proof.
  intros U. destruct tok as [|c tok]; [discriminate U|].
  unfold uuid_form in U. simpl in U. apply andb_prop in U as [Hc _].
  simpl. destruct (Ascii.eqb_spec c "/"); [subst c; discriminate Hc|reflexivity].
Qed.

End Text.

Module Flow.
Section Flow.
Variable E : Env.

Lemma cleaned_md (f : gmap string string) : cleaned E f !! md_path E = None.
Proof.
  unfold cleaned. destruct (decide (docx_path E = md_path E)) as [->|Hne].
  - apply lookup_delete_eq.
  - rewrite lookup_delete_ne by exact Hne. apply lookup_delete_eq.
Qed.

Lemma cleaned_docx (f : gmap string string) : cleaned E f !! docx_path E = None.
Proof. unfold cleaned. apply lookup_delete_eq. Qed.

(** A validated request runs the try block under the finally block. *)
Lemma convert_validated (req : request) (v : pyval) (w : world) :
  validated req = Some v ->
  convert_markdown_to_docx E req w =
  try_finally (try_block E (md_path E) (docx_path E) v)
              (finally_block E (md_path E) (docx_path E)) w.
Proof.
  unfold validated, convert_markdown_to_docx, get_json, py_get, uuid4_str.
  intros V. destruct (is_json req); [|discriminate V]. simpl.
  destruct (json req) as [[| | | | | |d]|]; try discriminate V.
  unfold_monad. simpl in *.
  destruct (truthy (default PNone (d !! "markdown"))); [|discriminate V].
  injection V as <-. reflexivity.
Qed.

(** A request that fails validation never reaches the try block. *)
Lemma convert_not_validated (req : request) (w : world) :
  validated req = None ->
  snd (convert_markdown_to_docx E req w) = w.
Proof.
  unfold validated, convert_markdown_to_docx, get_json, py_get, uuid4_str.
  intros V. destruct (is_json req); [|reflexivity]. simpl.
  destruct (json req) as [[| | | | | |d]|]; try reflexivity.
  unfold_monad. simpl in *.
  destruct (truthy (default PNone (d !! "markdown"))); [discriminate V|reflexivity].
Qed.

(** The finally block when no removal fails: both paths are gone. *)
Lemma finally_block_clean (w : world) :
  removals_succeed E ->
  finally_block E (md_path E) (docx_path E) w =
  (Val tt, mkWorld (cleaned E (fs w)) (log w)).
Proof.
  intros [R1 R2]. unfold finally_block, os_path_exists, os_remove, cleaned.
  unfold_monad. destruct w as [f l]. simpl.
  destruct (f !! md_path E) eqn:L1; simpl.
  - rewrite R1, L1. simpl.
    destruct (delete (md_path E) f !! docx_path E) eqn:L2; simpl.
    + rewrite R2, L2. reflexivity.
    + rewrite (delete_id _ _ L2). reflexivity.
  - rewrite (delete_id _ _ L1).
    destruct (f !! docx_path E) eqn:L2; simpl.
    + rewrite R2, L2. reflexivity.
    + rewrite (delete_id _ _ L2). reflexivity.
Qed.

(** [try ... finally] with that finally block keeps the outcome of the
    body and cleans the file system the body left. *)
Lemma try_finally_clean {A : Type} (body : M A) (w : world) :
  removals_succeed E ->
  try_finally body (finally_block E (md_path E) (docx_path E)) w =
  (fst (body w), mkWorld (cleaned E (fs (snd (body w)))) (log (snd (body w)))).
Proof.
  intros R. unfold try_finally. destruct (body w) as [o w1]. simpl.
  rewrite (finally_block_clean w1 R). reflexivity.
Qed.

Lemma try_block_written (w : world) (s : string) :
  open_error E (md_path E) = None ->
  write_error E (md_path E) s = None ->
  try_block E (md_path E) (docx_path E) (PStr s) w =
  let '(r, f') := run E (pandoc_command E) 30 (<[md_path E := s]> (fs w)) in
  outcome_of_run E (log w ++ [Spawn (pandoc_command E) 30]) r f'.
Proof.
  intros O W. unfold try_block, outcome_of_run, write_text, subprocess_run.
  unfold pandoc_command. unfold_monad. rewrite O, W. simpl.
  destruct (run E _ 30 _) as [[e|cp] f']; simpl; [reflexivity|].
  destruct (returncode cp =? 0); simpl; [|reflexivity].
  unfold os_path_exists, send_file. simpl.
  destruct (f' !! docx_path E) eqn:L; simpl; [|reflexivity].
  destruct (send_file_error E (docx_path E)); simpl; rewrite ?L; reflexivity.
Qed.

(** The try block never runs the converter on anything but a written str. *)
Lemma try_block_not_written (w : world) (v : pyval) :
  (forall s, v = PStr s ->
     open_error E (md_path E) <> None \/ write_error E (md_path E) s <> None) ->
  exists e w1, try_block E (md_path E) (docx_path E) v w = (Exc e, w1)
               /\ log w1 = log w.
Proof.
  intros H. unfold try_block, write_text. unfold_monad.
  destruct (open_error E (md_path E)) as [e|] eqn:O; [eauto|].
  destruct v as [| | | |s| |]; simpl; eauto.
  destruct (write_error E (md_path E) s) as [e|] eqn:W; simpl; [eauto|].
  destruct (H s eq_refl) as [C|C]; congruence.
Qed.

(** Every response the try block returns is one of three. *)
Lemma try_block_returns (w : world) (v : pyval) (r : response) :
  fst (try_block E (md_path E) (docx_path E) v w) = Val r ->
  (exists details, r = pandoc_failed_response details)
  \/ r = output_missing_response
  \/ (exists content, r = success_response content).
Proof.
  destruct (open_error E (md_path E)) as [e|] eqn:O.
  { unfold try_block, write_text. unfold_monad. rewrite O. discriminate. }
  destruct v as [| | | |s| |];
    try (unfold try_block, write_text; unfold_monad; rewrite O; discriminate).
  destruct (write_error E (md_path E) s) as [e|] eqn:W.
  { unfold try_block, write_text. unfold_monad. rewrite O, W. discriminate. }
  rewrite (try_block_written w s O W). unfold outcome_of_run.
  destruct (run E _ 30 _) as [[e|cp] f']; simpl; [discriminate|].
  destruct (returncode cp =? 0); simpl.
  - destruct (f' !! docx_path E) as [c|]; simpl.
    + destruct (send_file_error E (docx_path E)); simpl; [discriminate|].
      intros [= <-]. eauto.
    + intros [= <-]. eauto.
  - intros [= <-]. eauto.
Qed.

(** If [try ... finally] returns a value, it is the value of the body. *)
Lemma try_finally_returns {A : Type} (body : M A) (fin : M unit)
    (w : world) (a : A) :
  fst (try_finally body fin w) = Val a -> fst (body w) = Val a.
Proof.
  unfold try_finally. destruct (body w) as [o w1].
  destruct (fin w1) as [[[]|e] w2]; simpl; [auto|discriminate].
Qed.

(** The two scratch paths differ. *)
Lemma paths_differ : md_path E <> docx_path E.
Proof.
  unfold md_path, docx_path, input_md_path, output_docx_path, os_path_join.
  assert (D : token E +:+ ".md" <> token E +:+ ".docx").
  { intros C. apply (inj (String.app (token E))) in C. discriminate C. }
  assert (S : starts_with_slash (token E +:+ ".md")
              = starts_with_slash (token E +:+ ".docx")).
  { destruct (token E); reflexivity. }
  rewrite <- S. destruct (starts_with_slash (token E +:+ ".md")); [exact D|].
  simpl. intros C. injection C as C. apply D. exact C.
Qed.

(** The whole handler on a request whose converter run gave [r]: the
    classified outcome, and a cleaned file system. *)
Lemma convert_converter_gives (req : request) (w : world)
    (r : exn + CompletedProcess) (f' : gmap string string) :
  converter_gives E req w r f' ->
  removals_succeed E ->
  convert_markdown_to_docx E req w =
  let X := outcome_of_run E (log w ++ [Spawn (pandoc_command E) 30]) r f' in
  (fst X, mkWorld (cleaned E (fs (snd X))) (log (snd X))).
Proof.
  intros (s & V & O & W & R) Rm.
  rewrite (convert_validated req _ w V), (try_finally_clean _ w Rm).
  rewrite (try_block_written w s O W), R. reflexivity.
Qed.

End Flow.
End Flow.

(** * Properties of the handler *)









(** C10. For every request with a JSON content type whose parsed body is
    not an object (null, a boolean, a number, a string or an array),
    [data.get('markdown')] raises AttributeError, nothing catches it, and it
    leaves [convert_markdown_to_docx]: flask answers 500, not the 400 of the
    missing-markdown check.  Nothing was spawned or written. *)
Theorem non_object_body_raises (E : Env) (req : request) (w : world) (v : pyval) :
  is_json req = true ->
  json req = Some v ->
  is_dict v = false ->
  convert_markdown_to_docx E req w = (Exc (AttributeError (type_name v) "get"), w)
  /\ flask_status (fst (convert_markdown_to_docx E req w)) = 500.
Proof.
  intros J B D. unfold convert_markdown_to_docx, get_json, py_get.
  rewrite J, B. unfold_monad. simpl.
  destruct v; try discriminate D; split; reflexivity.
Qed.

Lemma non_object_body_raises_witness :
  convert_markdown_to_docx Sample.E_ok (Sample.post (PList [PStr "# Hello"]))
    Sample.w0
  = (Exc (AttributeError "list" "get"), Sample.w0)
  /\ flask_status
       (fst (convert_markdown_to_docx Sample.E_ok
               (Sample.post (PList [PStr "# Hello"])) Sample.w0)) = 500.
Proof.
  apply (non_object_body_raises Sample.E_ok (Sample.post (PList [PStr "# Hello"]))
           Sample.w0 (PList [PStr "# Hello"])); reflexivity.
Defined.









(** C8, as stated, fails: the try block had decided on the success
    response, [os.remove] failed on the input artifact, and the handler's
    outcome is that OSError instead. *)
Lemma removal_failure_masks_success :
  fst (try_block Sample.E_undeletable (md_path Sample.E_undeletable)
         (docx_path Sample.E_undeletable) (PStr "# Hello") Sample.w0)
  = Val (success_response "PK-docx")
  /\ fst (convert_markdown_to_docx Sample.E_undeletable Sample.hello Sample.w0)
     = Exc (OSError "Permission denied").
Proof. vm_compute. split; reflexivity. Qed.

(** C8, amended.  Errors raised while deleting a scratch artifact are not
    swallowed.  For every request that passes validation: when neither
    [os.remove] fails, the handler's outcome is the outcome the try block
    determined; when [os.remove] fails with [e] on an artifact that exists
    at cleanup (the input, or the output once the input was dealt with),
    [e] leaves the finally block and replaces that outcome. *)
Theorem removal_failure_replaces_outcome (E : Env) (req : request) (w : world)
    (v : pyval) :
  validated req = Some v ->
  (removals_succeed E ->
   fst (convert_markdown_to_docx E req w)
   = fst (try_block E (md_path E) (docx_path E) v w))
  /\ (forall e : exn,
        remove_error E (md_path E) = Some e ->
        is_Some (fs (snd (try_block E (md_path E) (docx_path E) v w))
                 !! md_path E) ->
        fst (convert_markdown_to_docx E req w) = Exc e)
  /\ (forall e : exn,
        remove_error E (md_path E) = None ->
        remove_error E (docx_path E) = Some e ->
        is_Some (fs (snd (try_block E (md_path E) (docx_path E) v w))
                 !! docx_path E) ->
        fst (convert_markdown_to_docx E req w) = Exc e).
Proof.
  intros V. rewrite (Flow.convert_validated E req v w V).
  split; [|split].
  - intros R. rewrite (Flow.try_finally_clean E _ w R). reflexivity.
  - intros e R [c L]. unfold try_finally.
    destruct (try_block E _ _ v w) as [o [f l]]. simpl in L.
    unfold finally_block, os_path_exists, os_remove. unfold_monad. simpl.
    rewrite L. simpl. rewrite R. reflexivity.
  - intros e R1 R2 [c L]. unfold try_finally.
    destruct (try_block E _ _ v w) as [o [f l]]. simpl in L.
    unfold finally_block, os_path_exists, os_remove. unfold_monad. simpl.
    rewrite R1.
    destruct (f !! md_path E) eqn:L1; simpl; rewrite ?L1; simpl.
    + rewrite (lookup_delete_ne f _ _ (Flow.paths_differ E)), L. simpl.
      rewrite R2. reflexivity.
    + rewrite L. simpl. rewrite R2. reflexivity.
Qed.

Lemma removal_failure_replaces_outcome_witness :
  fst (convert_markdown_to_docx Sample.E_undeletable Sample.hello Sample.w0)
  = Exc (OSError "Permission denied").
Proof.
  apply (proj1 (proj2 (removal_failure_replaces_outcome Sample.E_undeletable
                         Sample.hello Sample.w0 (PStr "# Hello") eq_refl))).
  - vm_compute. reflexivity.
  - exists "# Hello". vm_compute. reflexivity.
Defined.

(** C9, as stated, fails: with TEMP_DIR and TMPDIR set to /var/scratch in
    the process environment, the converter is still run on files in /tmp. *)
Lemma environment_does_not_move_scratch :
  environ Sample.E_scratch_env !! "TEMP_DIR" = Some "/var/scratch"
  /\ environ Sample.E_scratch_env !! "TMPDIR" = Some "/var/scratch"
  /\ log (snd (convert_markdown_to_docx Sample.E_scratch_env Sample.hello
                 Sample.w0))
     = [Spawn ["pandoc"; "/tmp/3f2b8c1e-9d4a-4e7b-8a6c-1b2c3d4e5f60.md"; "-o";
               "/tmp/3f2b8c1e-9d4a-4e7b-8a6c-1b2c3d4e5f60.docx"] 30;
        SendFile "/tmp/3f2b8c1e-9d4a-4e7b-8a6c-1b2c3d4e5f60.docx"].
Proof. vm_compute. repeat split; reflexivity. Qed.

(** C9, amended.  The scratch directory is the module constant
    TEMP_DIR = '/tmp', written in the source: whatever the process
    environment holds, the two artifact paths of a request are
    /tmp/<uuid>.md and /tmp/<uuid>.docx. *)
Theorem scratch_directory_is_fixed (E : Env) (vars : gmap string string) :
  uuid_form (token E) = true ->
  TEMP_DIR = "/tmp"
  /\ md_path (with_environ E vars) = "/tmp/" +:+ token E +:+ ".md"
  /\ docx_path (with_environ E vars) = "/tmp/" +:+ token E +:+ ".docx".
Proof.
  intros U. split; [reflexivity|].
  unfold md_path, docx_path, input_md_path, output_docx_path, os_path_join.
  simpl token.
  rewrite !(Text.uuid_form_not_absolute _ _ U). split; reflexivity.
Qed.

Lemma scratch_directory_is_fixed_witness :
  TEMP_DIR = "/tmp"
  /\ md_path Sample.E_scratch_env
     = "/tmp/3f2b8c1e-9d4a-4e7b-8a6c-1b2c3d4e5f60.md"
  /\ docx_path Sample.E_scratch_env
     = "/tmp/3f2b8c1e-9d4a-4e7b-8a6c-1b2c3d4e5f60.docx".
Proof.
  apply (scratch_directory_is_fixed Sample.E_ok
           {[ "TEMP_DIR" := "/var/scratch"; "TMPDIR" := "/var/scratch" ]}).
  vm_compute. reflexivity.
Defined.

(** * Further properties of the handler *)

Module Steps.
Section Steps.
Variable E : Env.


(** The finally block touches no path but its two. *)
Lemma finally_block_frame (a b p : string) (w : world) :
  p <> a -> p <> b ->
  fs (snd (finally_block E a b w)) !! p = fs w !! p.
Proof.
  intros Na Nb.
  unfold finally_block, os_path_exists, os_remove. unfold_monad.
  destruct w as [f l]. simpl.
  destruct (f !! a) eqn:La; simpl.
  - destruct (remove_error E a); simpl; [reflexivity|]. rewrite La. simpl.
    destruct (delete a f !! b) eqn:Lb; simpl.
    + destruct (remove_error E b); simpl.
      * apply lookup_delete_ne. congruence.
      * rewrite Lb. simpl. rewrite !lookup_delete_ne by congruence. reflexivity.
    + apply lookup_delete_ne. congruence.
  - destruct (f !! b) eqn:Lb; simpl; [|reflexivity].
    destruct (remove_error E b); simpl; [reflexivity|]. rewrite Lb. simpl.
    apply lookup_delete_ne. congruence.
Qed.

(** With neither file present the finally block calls nothing. *)
Lemma finally_block_missing (a b : string) (w : world) :
  fs w !! a = None -> fs w !! b = None ->
  finally_block E a b w = (Val tt, w).
Proof.
  intros La Lb. unfold finally_block, os_path_exists. unfold_monad.
  rewrite La. simpl. rewrite Lb. reflexivity.
Qed.

(** If removing the first file fails, the second is not looked at. *)
Lemma finally_block_first_fails (a b : string) (w : world) (e : exn) :
  is_Some (fs w !! a) -> remove_error E a = Some e ->
  finally_block E a b w = (Exc e, w).
Proof.
  intros [c La] R. unfold finally_block, os_path_exists, os_remove.
  unfold_monad. rewrite La. simpl. rewrite R. reflexivity.
Qed.

(** The try block when the text cannot be written: the log is untouched
    and only the input path may have changed. *)
Lemma try_block_unwritten (w : world) (v : pyval) :
  (is_str v = false \/ open_error E (md_path E) <> None
   \/ exists s, v = PStr s /\ write_error E (md_path E) s <> None) ->
  exists (e : exn) (w1 : world),
    try_block E (md_path E) (docx_path E) v w = (Exc e, w1)
    /\ log w1 = log w
    /\ (forall p, p <> md_path E -> fs w1 !! p = fs w !! p).
Proof.
  intros H. unfold try_block, write_text. unfold_monad.
  destruct (open_error E (md_path E)) as [e|] eqn:O.
  { exists e, w. auto. }
  assert (F : forall p, p <> md_path E ->
              (<[md_path E := ""]> (fs w)) !! p = fs w !! p).
  { intros p Np. apply lookup_insert_ne. congruence. }
  destruct v as [| | | |s| |]; simpl;
    try (eexists _, _; split; [reflexivity|]; split; [reflexivity|exact F]).
  destruct (write_error E (md_path E) s) as [e|] eqn:W; simpl.
  { eexists _, _. split; [reflexivity|]. split; [reflexivity|exact F]. }
  destruct H as [H|[H|(s' & [= <-] & H)]]; [discriminate H|..]; congruence.
Qed.

(** The log and the untouched files after the classification of a run. *)
Lemma outcome_of_run_log (l : list event) (r : exn + CompletedProcess)
    (f' : gmap string string) :
  fs (snd (outcome_of_run E l r f')) = f'
  /\ (log (snd (outcome_of_run E l r f')) = l
      \/ (exists err, log (snd (outcome_of_run E l r f'))
                      = (l ++ [Printed ["Pandoc Error:"; err]])%list)
      \/ log (snd (outcome_of_run E l r f'))
         = (l ++ [SendFile (docx_path E)])%list).
Proof.
  unfold outcome_of_run. destruct r as [e|cp]; simpl; [auto|].
  destruct (returncode cp =? 0); simpl.
  - destruct (f' !! docx_path E); simpl; [|auto].
    destruct (send_file_error E (docx_path E)); simpl; auto.
  - split; [reflexivity|]. right. left. eauto.
Qed.

(** Every value of [markdown_content] is a written str or is not. *)
Lemma written_or_not (v : pyval) :
  (exists s, v = PStr s /\ open_error E (md_path E) = None
             /\ write_error E (md_path E) s = None)
  \/ (is_str v = false \/ open_error E (md_path E) <> None
      \/ exists s, v = PStr s /\ write_error E (md_path E) s <> None).
Proof.
  destruct (open_error E (md_path E)) as [e|] eqn:O; [right; right; left; congruence|].
  destruct v as [| | | |s| |]; try (right; left; reflexivity).
  destruct (write_error E (md_path E) s) as [e|] eqn:W.
  - right. right. right. exists s. split; [reflexivity|congruence].
  - left. eauto.
Qed.

End Steps.
End Steps.



(** X2. The check of line 40 is Python's truth test, so a "markdown" value
    of false, 0, 0.0, an empty array or an empty object is answered like a
    missing one: HTTP 400 with the missing-key message, and nothing is
    written or spawned. *)
Theorem falsy_markdown_is_rejected (E : Env) (req : request) (w : world)
    (d : gmap string pyval) (v : pyval) :
  is_json req = true ->
  json req = Some (PDict d) ->
  d !! "markdown" = Some v ->
  v = PBool false \/ v = PInt 0 \/ v = PFloat 0%float
  \/ v = PList [] \/ v = PDict ∅ ->
  convert_markdown_to_docx E req w
  = (Val (JsonResponse
            {[ "error" := "Missing 'markdown' key in request body" ]} 400), w).
Proof.
  intros J B L H. unfold convert_markdown_to_docx, get_json, py_get.
  rewrite J, B. unfold_monad. simpl. rewrite L. simpl.
  destruct H as [->|[->|[->|[->| ->]]]]; reflexivity.
Qed.

Lemma falsy_markdown_is_rejected_witness :
  convert_markdown_to_docx Sample.E_ok
    (Sample.post (PDict {[ "markdown" := PList [] ]})) Sample.w0
  = (Val (JsonResponse
            {[ "error" := "Missing 'markdown' key in request body" ]} 400),
     Sample.w0).
Proof.
  apply (falsy_markdown_is_rejected Sample.E_ok
           (Sample.post (PDict {[ "markdown" := PList [] ]})) Sample.w0
           {[ "markdown" := PList [] ]} (PList [])).
  - reflexivity.
  - reflexivity.
  - vm_compute. reflexivity.
  - right. right. right. left. reflexivity.
Defined.

(** X3. Of a JSON object the handler reads the "markdown" entry only: two
    requests whose bodies agree on it are treated alike, whatever other
    keys they carry. *)
Theorem only_markdown_entry_is_read (E : Env) (req1 req2 : request) (w : world)
    (d1 d2 : gmap string pyval) :
  is_json req1 = true -> json req1 = Some (PDict d1) ->
  is_json req2 = true -> json req2 = Some (PDict d2) ->
  d1 !! "markdown" = d2 !! "markdown" ->
  convert_markdown_to_docx E req1 w = convert_markdown_to_docx E req2 w.
Proof.
  intros J1 B1 J2 B2 H. unfold convert_markdown_to_docx, get_json, py_get.
  rewrite J1, B1, J2, B2. unfold_monad. simpl. rewrite H. reflexivity.
Qed.

Lemma only_markdown_entry_is_read_witness :
  convert_markdown_to_docx Sample.E_ok Sample.hello Sample.w0
  = convert_markdown_to_docx Sample.E_ok
      (Sample.post (PDict {[ "markdown" := PStr "# Hello";
                             "title" := PStr "ignored";
                             "format" := PStr "pdf" ]})) Sample.w0.
Proof.
  apply (only_markdown_entry_is_read Sample.E_ok _ _ Sample.w0
           {[ "markdown" := PStr "# Hello" ]}
           {[ "markdown" := PStr "# Hello"; "title" := PStr "ignored";
              "format" := PStr "pdf" ]}); reflexivity.
Defined.

(** X4. The two removals of the finally block run one after the other
    (lines 100-103): when [os.remove] raises on the input artifact, the
    output artifact is neither looked at nor removed, and the handler hands
    back the file system exactly as the try block left it. *)
Theorem failed_input_removal_keeps_output (E : Env) (req : request) (w : world)
    (v : pyval) (e : exn) :
  validated req = Some v ->
  remove_error E (md_path E) = Some e ->
  is_Some (fs (snd (try_block E (md_path E) (docx_path E) v w)) !! md_path E) ->
  convert_markdown_to_docx E req w
  = (Exc e, snd (try_block E (md_path E) (docx_path E) v w)).
Proof.
  intros V R L. rewrite (Flow.convert_validated E req v w V).
  unfold try_finally. destruct (try_block E _ _ v w) as [o w1]. simpl in *.
  rewrite (Steps.finally_block_first_fails E _ _ w1 e L R). reflexivity.
Qed.

Lemma failed_input_removal_keeps_output_witness :
  convert_markdown_to_docx Sample.E_undeletable Sample.hello Sample.w0
  = (Exc (OSError "Permission denied"),
     snd (try_block Sample.E_undeletable (md_path Sample.E_undeletable)
            (docx_path Sample.E_undeletable) (PStr "# Hello") Sample.w0)).
Proof.
  apply (failed_input_removal_keeps_output Sample.E_undeletable Sample.hello
           Sample.w0 (PStr "# Hello")).
  - vm_compute. reflexivity.
  - vm_compute. reflexivity.
  - exists "# Hello". vm_compute. reflexivity.
Defined.

(** X5. Each removal is guarded by [os.path.exists]: when [open] fails on
    the input path and no file was at either scratch path, the finally
    block calls [os.remove] on nothing, so the handler raises the error of
    [open] and leaves the world as it was, even where [os.remove] would
    fail. *)
Theorem open_failure_changes_nothing (E : Env) (req : request) (w : world)
    (v : pyval) (e : exn) :
  validated req = Some v ->
  open_error E (md_path E) = Some e ->
  fs w !! md_path E = None ->
  fs w !! docx_path E = None ->
  convert_markdown_to_docx E req w = (Exc e, w).
Proof.
  intros V O L1 L2. rewrite (Flow.convert_validated E req v w V).
  unfold try_finally, try_block, write_text. unfold_monad. rewrite O.
  rewrite (Steps.finally_block_missing E _ _ w L1 L2). reflexivity.
Qed.

Lemma open_failure_changes_nothing_witness :
  convert_markdown_to_docx Sample.E_disk_full Sample.hello Sample.w_busy
  = (Exc (OSError "No space left on device"), Sample.w_busy).
Proof.
  apply (open_failure_changes_nothing Sample.E_disk_full Sample.hello
           Sample.w_busy (PStr "# Hello")).
  - vm_compute. reflexivity.
  - reflexivity.
  - vm_compute. reflexivity.
  - vm_compute. reflexivity.
Defined.

Module Whole.
Section Whole.
Variable E : Env.

(** The world after [try ... finally] is the one the finally block leaves. *)
Lemma try_finally_world {A : Type} (body : M A) (fin : M unit) (w : world) :
  snd (try_finally body fin w) = snd (fin (snd (body w))).
Proof.
  unfold try_finally. destruct (body w) as [o w1]. simpl.
  destruct (fin w1) as [[[]|e] w2]; reflexivity.
Qed.


(** The files the try block leaves alone. *)
Lemma try_block_frame (w : world) (v : pyval) (p : string) :
  p <> md_path E -> converter_leaves E p ->
  fs (snd (try_block E (md_path E) (docx_path E) v w)) !! p = fs w !! p.
Proof.
  intros Np C.
  destruct (Steps.written_or_not E v) as [(s & -> & O & W)|H].
  - rewrite (Flow.try_block_written E w s O W).
    pose proof (C (<[md_path E := s]> (fs w))) as Cp.
    destruct (run E (pandoc_command E) 30 _) as [r f']. simpl in Cp.
    destruct (Steps.outcome_of_run_log E
                (log w ++ [Spawn (pandoc_command E) 30]) r f') as [-> _].
    rewrite Cp. apply lookup_insert_ne. congruence.
  - destruct (Steps.try_block_unwritten E w v H) as (e & w1 & -> & _ & F).
    simpl. apply F. exact Np.
Qed.

(** Every response of the handler is one of five. *)
Lemma convert_returns (req : request) (w : world) (r : response) :
  fst (convert_markdown_to_docx E req w) = Val r ->
  r = not_json_response \/ r = missing_markdown_response
  \/ (exists details, r = pandoc_failed_response details)
  \/ r = output_missing_response
  \/ (exists content, r = success_response content).
Proof.
  intros H. destruct (validated req) as [v|] eqn:V.
  - rewrite (Flow.convert_validated E req v w V) in H.
    apply Flow.try_finally_returns in H.
    apply Flow.try_block_returns in H as [[d ->]|[->|[c ->]]]; eauto 6.
  - revert H V.
    unfold validated, convert_markdown_to_docx, get_json, py_get.
    destruct (is_json req); simpl; [|intros [= <-] _; auto].
    destruct (json req) as [[| | | | | |d]|]; unfold_monad; simpl;
      try discriminate.
    destruct (truthy (default PNone (d !! "markdown"))); simpl;
      [discriminate 2|].
    intros [= <-] _. auto.
Qed.

End Whole.
End Whole.

Module Paths.

(** Strings of equal length with equal extensions are equal, and so are the
    extensions. *)
Lemma app_same_length (s1 : string) :
  forall s2 a b : string,
    String.length s1 = String.length s2 ->
    s1 +:+ a = s2 +:+ b -> s1 = s2 /\ a = b.
Proof.
  induction s1 as [|c s1 IH]; intros [|c2 s2] a b L H; simpl in *;
    try discriminate L.
  - auto.
  - injection L as L. injection H as -> H.
    destruct (IH s2 a b L H) as [-> ->]. auto.
Qed.

Lemma uuid_length (t : string) : uuid_form t = true -> String.length t = 36%nat.
Proof.
  intros U. apply Text.uuid_form_from_length in U. simpl in U. exact U.
Qed.

(** The path of a uuid and an extension. *)
Lemma joined (t ext : string) :
  uuid_form t = true -> os_path_join TEMP_DIR (t +:+ ext) = "/tmp/" +:+ t +:+ ext.
Proof.
  intros U. unfold os_path_join.
  rewrite (Text.uuid_form_not_absolute _ _ U). reflexivity.
Qed.

Lemma joined_distinct (t1 t2 ext1 ext2 : string) :
  uuid_form t1 = true -> uuid_form t2 = true ->
  t1 <> t2 \/ ext1 <> ext2 ->
  os_path_join TEMP_DIR (t1 +:+ ext1) <> os_path_join TEMP_DIR (t2 +:+ ext2).
Proof.
  intros U1 U2 D. rewrite (joined _ _ U1), (joined _ _ U2). intros H.
  apply (inj (String.app "/tmp/")) in H.
  apply app_same_length in H as [H1 H2].
  - destruct D as [D|D]; [exact (D H1)|exact (D H2)].
  - rewrite (uuid_length _ U1), (uuid_length _ U2). reflexivity.
Qed.

End Paths.


(** X7. The handler reads, writes and removes nothing but its two scratch
    paths: a file at any other path that the converter leaves alone is
    after the request what it was before, on every exit of the handler. *)
Theorem other_files_are_untouched (E : Env) (req : request) (w : world)
    (p : string) :
  p <> md_path E ->
  p <> docx_path E ->
  converter_leaves E p ->
  fs (snd (convert_markdown_to_docx E req w)) !! p = fs w !! p.
Proof.
  intros N1 N2 C. destruct (validated req) as [v|] eqn:V.
  - rewrite (Flow.convert_validated E req v w V), Whole.try_finally_world.
    rewrite (Steps.finally_block_frame E _ _ p _ N1 N2).
    apply (Whole.try_block_frame E w v p N1 C).
  - rewrite (Flow.convert_not_validated E req w V). reflexivity.
Qed.

Lemma other_files_are_untouched_witness :
  fs (snd (convert_markdown_to_docx Sample.E_rejects Sample.hello Sample.w_busy))
    !! "/tmp/0a1b2c3d-4e5f-4a6b-9c7d-8e9f0a1b2c3d.md"
  = fs Sample.w_busy !! "/tmp/0a1b2c3d-4e5f-4a6b-9c7d-8e9f0a1b2c3d.md".
Proof.
  apply (other_files_are_untouched Sample.E_rejects Sample.hello Sample.w_busy).
  - vm_compute. discriminate.
  - vm_compute. discriminate.
  - intros f. reflexivity.
Defined.

(** X8. The request's text reaches the converter through the input
    artifact and the converter's output reaches the client through the
    output artifact, both unchanged: with a converter that copies its input
    file to its output file, the body of the success response is the
    submitted markdown text, and the scratch files are gone afterwards. *)
Theorem copied_text_comes_back (E : Env) (req : request) (w : world) (s : string) :
  run E = copy_converter ->
  validated req = Some (PStr s) ->
  open_error E (md_path E) = None ->
  write_error E (md_path E) s = None ->
  send_file_error E (docx_path E) = None ->
  removals_succeed E ->
  convert_markdown_to_docx E req w
  = (Val (success_response s),
     mkWorld (cleaned E (fs w))
             (log w ++ [Spawn (pandoc_command E) 30; SendFile (docx_path E)])).
Proof.
  intros C V O W S R.
  assert (G : converter_gives E req w (inr (mkCompleted 0 "" ""))
                (<[docx_path E := s]> (<[md_path E := s]> (fs w)))).
  { exists s. repeat split; try assumption.
    rewrite C. unfold pandoc_command, command, copy_converter.
    rewrite lookup_insert_eq. reflexivity. }
  rewrite (Flow.convert_converter_gives E req w _ _ G R).
  unfold outcome_of_run. simpl. rewrite lookup_insert_eq, S. simpl.
  rewrite <- app_assoc. f_equal. f_equal.
  unfold cleaned. apply map_eq. intros p.
  destruct (decide (p = docx_path E)) as [->|N2];
    [rewrite !lookup_delete_eq; reflexivity|].
  rewrite !(lookup_delete_ne _ (docx_path E)) by congruence.
  destruct (decide (p = md_path E)) as [->|N1];
    [rewrite !lookup_delete_eq; reflexivity|].
  rewrite !lookup_delete_ne, !lookup_insert_ne by congruence. reflexivity.
Qed.

Lemma copied_text_comes_back_witness :
  convert_markdown_to_docx Sample.E_copy Sample.hello Sample.w0
  = (Val (success_response "# Hello"),
     mkWorld (cleaned Sample.E_copy (fs Sample.w0))
             (log Sample.w0 ++ [Spawn (pandoc_command Sample.E_copy) 30;
                                SendFile (docx_path Sample.E_copy)])).
Proof.
  apply (copied_text_comes_back Sample.E_copy Sample.hello Sample.w0 "# Hello").
  - reflexivity.
  - vm_compute. reflexivity.
  - reflexivity.
  - reflexivity.
  - reflexivity.
  - split; reflexivity.
Defined.

(** X9. The handler is neutral on the file system: if neither scratch path
    existed before the request, the converter changes no file but the
    output artifact, and [os.remove] does not fail, then after a validated
    request, whatever its outcome, the file system is exactly what it was
    before. *)
Theorem file_system_is_restored (E : Env) (req : request) (w : world) (v : pyval) :
  validated req = Some v ->
  removals_succeed E ->
  fs w !! md_path E = None ->
  fs w !! docx_path E = None ->
  (forall p, p <> docx_path E -> converter_leaves E p) ->
  fs (snd (convert_markdown_to_docx E req w)) = fs w.
Proof.
  intros V R L1 L2 C. apply map_eq. intros p.
  rewrite (Flow.convert_validated E req v w V), (Flow.try_finally_clean E _ w R).
  simpl.
  destruct (decide (p = md_path E)) as [->|N1].
  { rewrite Flow.cleaned_md. symmetry. exact L1. }
  destruct (decide (p = docx_path E)) as [->|N2].
  { rewrite Flow.cleaned_docx. symmetry. exact L2. }
  unfold cleaned. rewrite !lookup_delete_ne by congruence.
  apply (Whole.try_block_frame E w v p N1 (C p N2)).
Qed.

Lemma file_system_is_restored_witness :
  fs (snd (convert_markdown_to_docx Sample.E_hangs Sample.hello Sample.w_busy))
  = fs Sample.w_busy.
Proof.
  apply (file_system_is_restored Sample.E_hangs Sample.hello Sample.w_busy
           (PStr "# Hello")).
  - vm_compute. reflexivity.
  - split; reflexivity.
  - vm_compute. reflexivity.
  - vm_compute. reflexivity.
  - intros p N f.
    change (snd (run Sample.E_hangs (pandoc_command Sample.E_hangs) 30 f))
      with (<[docx_path Sample.E_hangs := "PK-"]> f).
    apply lookup_insert_ne. congruence.
Defined.

(** X10. Both scratch paths are named after the request's uuid (lines
    45-47), so requests that drew different uuids share no scratch path:
    their input paths differ, their output paths differ, and the input path
    of one is not the output path of the other. *)
Theorem distinct_uuids_give_distinct_paths (t1 t2 : string) :
  uuid_form t1 = true ->
  uuid_form t2 = true ->
  t1 <> t2 ->
  input_md_path t1 <> input_md_path t2
  /\ output_docx_path t1 <> output_docx_path t2
  /\ input_md_path t1 <> output_docx_path t2
  /\ output_docx_path t1 <> input_md_path t2.
Proof.
  intros U1 U2 D. unfold input_md_path, output_docx_path.
  repeat split; apply Paths.joined_distinct; auto; right; discriminate.
Qed.

Lemma distinct_uuids_give_distinct_paths_witness :
  input_md_path Sample.tok <> input_md_path Sample.tok'
  /\ output_docx_path Sample.tok <> output_docx_path Sample.tok'
  /\ input_md_path Sample.tok <> output_docx_path Sample.tok'
  /\ output_docx_path Sample.tok <> input_md_path Sample.tok'.
Proof.
  apply (distinct_uuids_give_distinct_paths Sample.tok Sample.tok').
  - vm_compute. reflexivity.
  - vm_compute. reflexivity.
  - discriminate.
Defined.

(** X11. The client sees one of four statuses only.  Every response the
    handler returns carries 200, 400, 415 or 500, and flask turns an
    exception that leaves the handler into 400 (an unparseable JSON body)
    or 500 (anything else). *)
Theorem handler_status_is_one_of_four (E : Env) (req : request) (w : world) :
  flask_status (fst (convert_markdown_to_docx E req w)) = 200
  \/ flask_status (fst (convert_markdown_to_docx E req w)) = 400
  \/ flask_status (fst (convert_markdown_to_docx E req w)) = 415
  \/ flask_status (fst (convert_markdown_to_docx E req w)) = 500.
Proof.
  destruct (fst (convert_markdown_to_docx E req w)) as [r|e] eqn:H.
  - apply Whole.convert_returns in H
      as [->|[->|[[d ->]|[->|[c ->]]]]]; simpl; auto.
  - destruct e; simpl; auto.
Qed.




